(** * ICM relayer: validator-set resolver, quorum, admission and metrics

    A shallow embedding of

    - [peers/validators/canonical_validator_client.go]
      (the [CanonicalValidatorClient] wrapper around the P-chain client),
    - [NewAppRequestNetworkMetrics] of package [peers],

    together with the two pure decision functions of the design document
    (quorum evaluation and message admission), and the properties stated
    about them.

    Go values are modelled as follows.  A [uint64] is a [Z]; the code under
    study performs no arithmetic on them, so no wrap-around is involved.
    A Go [error] is [option error] with [None] for [nil].  A function with
    several results returns a tuple in the order of the Go signature.  A
    [nil] slice is the empty list and a [nil] map the empty map: the code
    never compares either with [nil].  Remote procedure calls and logger
    calls are effects: they are appended, in program order, to a trace that
    is threaded through a state monad. *)

From Stdlib Require Import ZArith QArith.
From stdpp Require Import base gmap strings list pretty.

(** ** Identifiers and errors *)

(** [ids.ID] is a 32-byte array and [ids.NodeID] a 20-byte array; both are
    read as the number they spell. *)
Definition ID : Type := N.
Definition NodeID : Type := N.

#[global] Instance ID_eq_dec : EqDecision ID := N.eq_dec.
#[global] Instance ID_countable : Countable ID := N_countable.
#[global] Instance NodeID_eq_dec : EqDecision NodeID := N.eq_dec.
#[global] Instance NodeID_countable : Countable NodeID := N_countable.

(** The error conditions the design document distinguishes, and the errors
    made with [errors.New]. *)
Inductive error : Type :=
  | MethodUnsupported
  | UpstreamUnavailable
  | EmptySubnet
  | errors_New (msg : string).

#[global] Instance error_eq_dec : EqDecision error.
Proof. solve_decision. Defined.

(** ** Validators *)

(** [validators.GetValidatorOutput]: one entry of the map the P-chain
    returns for a subnet.  [PublicKey] is a pointer and may be [nil]. *)
Record GetValidatorOutput : Type := {
  gvo_NodeID : NodeID;
  gvo_PublicKey : option (list Byte.byte);
  gvo_Weight : Z
}.

(** [validators.GetCurrentValidatorOutput], the value type of the map
    [GetCurrentValidatorSet] is declared to return. *)
Record GetCurrentValidatorOutput : Type := {
  gcvo_NodeID : NodeID;
  gcvo_PublicKey : option (list Byte.byte);
  gcvo_Weight : Z
}.

(** A member of a canonical validator set ([avalancheWarp.Validator]), with
    the field names of the design document's data model. *)
Record Validator : Type := {
  nodeIdentity : NodeID;
  attestationPublicKey : list Byte.byte;
  stakeWeight : Z
}.

(** Sum of the member weights of a validator list. *)
Definition sumStakeWeight (vdrs : list Validator) : Z :=
  foldr (fun vdr acc => (stakeWeight vdr + acc)%Z) 0%Z vdrs.

(** ** Effects *)

Inductive Level : Type := LevelError | LevelDebug.

Section Resolver.

(** Types and values of the libraries the client is built on. *)
Context {Context_ : Type} {rpc_Option : Type} {Logger : Type}.
Variable context_Background : Context_.
Variable ID_String : ID -> string.
Variable pchainapi_ProposedHeight : Z.

(** Structured log fields ([zap.String], [zap.Uint64], [zap.Error]). *)
Inductive Field : Type :=
  | zap_String (key val : string)
  | zap_Uint64 (key : string) (val : Z)
  | zap_Error (err : error).

(** What the client does to the outside world. *)
Inductive Event : Type :=
  | RpcGetHeight (ctx : Context_) (opts : list rpc_Option)
  | RpcValidatedBy (ctx : Context_) (blockchainID : ID) (opts : list rpc_Option)
  | RpcGetValidatorsAt (ctx : Context_) (subnetID : ID) (height : Z)
      (opts : list rpc_Option)
  | RpcGetCurrentValidators (ctx : Context_) (subnetID : ID)
      (nodeIDs : list NodeID) (opts : list rpc_Option)
  | Log (lg : Logger) (lvl : Level) (msg : string) (fields : list Field).

Definition Trace : Type := list Event.

(** The state monad over the trace. *)
Definition M (A : Type) : Type := Trace -> A * Trace.

Definition ret {A} (a : A) : M A := fun t => (a, t).
Definition bind {A B} (k : A -> M B) (c : M A) : M B :=
  fun t => let (a, t') := c t in k a t'.
Definition emit (e : Event) : M unit := fun t => (tt, t ++ [e]).

(** stdpp's monad notations: [x ← c; k] and [c;; k]. *)
#[global] Instance M_ret : MRet M := @ret.
#[global] Instance M_bind : MBind M := @bind.

(** ** The P-chain client *)

(** [platformvm.Client] is an interface over a remote node.  Each method
    is given by the node's answer; calling it is recorded in the trace. *)
Record platformvm_Client : Type := {
  node_GetHeight : Context_ -> list rpc_Option -> Z * option error;
  node_ValidatedBy : Context_ -> ID -> list rpc_Option -> ID * option error;
  node_GetValidatorsAt :
    Context_ -> ID -> Z -> list rpc_Option ->
    gmap NodeID GetValidatorOutput * option error;
  node_GetCurrentValidators :
    Context_ -> ID -> list NodeID -> list rpc_Option ->
    list GetCurrentValidatorOutput * option error
}.

Definition client_GetHeight (c : platformvm_Client) ctx opts
  : M (Z * option error) :=
  emit (RpcGetHeight ctx opts);; mret (node_GetHeight c ctx opts).

Definition client_ValidatedBy (c : platformvm_Client) ctx blockchainID opts
  : M (ID * option error) :=
  emit (RpcValidatedBy ctx blockchainID opts);;
  mret (node_ValidatedBy c ctx blockchainID opts).

Definition client_GetValidatorsAt (c : platformvm_Client) ctx subnetID height opts
  : M (gmap NodeID GetValidatorOutput * option error) :=
  emit (RpcGetValidatorsAt ctx subnetID height opts);;
  mret (node_GetValidatorsAt c ctx subnetID height opts).

Definition client_GetCurrentValidators (c : platformvm_Client) ctx subnetID nodeIDs opts
  : M (list GetCurrentValidatorOutput * option error) :=
  emit (RpcGetCurrentValidators ctx subnetID nodeIDs opts);;
  mret (node_GetCurrentValidators c ctx subnetID nodeIDs opts).

Definition logger_Error (lg : Logger) msg fields : M unit :=
  emit (Log lg LevelError msg fields).
Definition logger_Debug (lg : Logger) msg fields : M unit :=
  emit (Log lg LevelDebug msg fields).

(** ** CanonicalValidatorClient *)

Record CanonicalValidatorClient : Type := {
  logger : Logger;
  client : platformvm_Client;
  options : list rpc_Option
}.

(** [avalancheWarp.GetCanonicalValidatorSet] belongs to the node library.
    It receives the client as a [validators.State] and may call back into
    it, so it is an arbitrary computation over the client. *)
Variable avalancheWarp_GetCanonicalValidatorSet :
  Context_ -> CanonicalValidatorClient -> Z -> ID ->
  M (list Validator * Z * option error).

Definition GetCurrentCanonicalValidatorSet
    (v : CanonicalValidatorClient) (subnetID : ID)
  : M (list Validator * Z * option error) :=
  '(canonicalSubnetValidators, totalValidatorWeight, err) ←
    avalancheWarp_GetCanonicalValidatorSet
      context_Background v pchainapi_ProposedHeight subnetID;
  match err with
  | Some e =>
      logger_Error (logger v)
        "Failed to get the canonical subnet validator set"
        [zap_String "subnetID" (ID_String subnetID); zap_Error e];;
      mret ([], 0%Z, err)
  | None => mret (canonicalSubnetValidators, totalValidatorWeight, None)
  end.

Definition GetMinimumHeight (v : CanonicalValidatorClient) (ctx : Context_)
  : M (Z * option error) :=
  client_GetHeight (client v) ctx (options v).

Definition GetCurrentHeight (v : CanonicalValidatorClient) (ctx : Context_)
  : M (Z * option error) :=
  client_GetHeight (client v) ctx (options v).

Definition GetSubnetID (v : CanonicalValidatorClient) (ctx : Context_)
    (blockchainID : ID) : M (ID * option error) :=
  client_ValidatedBy (client v) ctx blockchainID (options v).

Definition GetCurrentValidatorSet (v : CanonicalValidatorClient)
    (_ : Context_) (_ : ID)
  : M (gmap ID GetCurrentValidatorOutput * Z * option error) :=
  mret (∅, 0%Z, None).

Definition GetValidatorSet (v : CanonicalValidatorClient) (ctx : Context_)
    (height : Z) (subnetID : ID)
  : M (gmap NodeID GetValidatorOutput * option error) :=
  '(res, err) ←
    client_GetValidatorsAt (client v) ctx subnetID height (options v);
  match err with
  | Some e =>
      logger_Debug (logger v)
        "P-chain RPC to getValidatorAt returned error. Falling back to getCurrentValidators"
        [zap_String "subnetID" (ID_String subnetID);
         zap_Uint64 "pChainHeight" height;
         zap_Error e];;
      mret (∅, err)
  | None => mret (res, None)
  end.

End Resolver.

(** ** Quorum evaluation *)

(** Modelled from the spec: the data model of the validator set, the quorum
    requirement and the attestation collection, and the decision function
    [hasQuorum] of the Quorum Evaluator, whose code is not among the
    sources.  The configured fraction is a rational number. *)
Record ValidatorSet : Type := {
  subnetIdentity : ID;
  height : option Z;
  members : list Validator;
  totalWeight : Z
}.

Record QuorumRequirement : Type := { fraction : Q }.

Definition Attestation : Type := list Byte.byte.

(** Weight of the validators of [S] that have an attestation in [atts];
    attestations of identities outside [S] do not count. *)
Definition attestedWeight (S : ValidatorSet)
    (atts : gmap NodeID Attestation) : Z :=
  sumStakeWeight
    (filter (fun vdr => is_Some (atts !! nodeIdentity vdr)) (members S)).

Definition hasQuorum (S : ValidatorSet) (atts : gmap NodeID Attestation)
    (requirement : QuorumRequirement) : bool :=
  Qle_bool (fraction requirement * inject_Z (totalWeight S))
           (inject_Z (attestedWeight S atts)).

(** ** Message admission *)

(** Modelled from the spec: the instance configuration, the observed
    message and the decision function [isAdmitted] of the Admission Filter,
    whose code is not among the sources (only its end-to-end test
    [AllowedAddresses] is). *)
Definition Address : Type := N.

#[global] Instance Address_eq_dec : EqDecision Address := N.eq_dec.
#[global] Instance Address_countable : Countable Address := N_countable.

Inductive AllowList : Type :=
  | Wildcard
  | Explicit (addrs : gset Address).

Record RelayerInstanceConfig : Type := {
  sourceChains : gmap ID AllowList;
  destinationChains : gmap ID AllowList
}.

Record ObservedMessage : Type := {
  sourceChain : ID;
  originSenderAddress : Address;
  destinationChain : ID;
  destinationAddress : Address;
  sequencePosition : Z * Z;
  payload : list Byte.byte
}.

Definition allows (l : AllowList) (a : Address) : bool :=
  match l with
  | Wildcard => true
  | Explicit addrs => bool_decide (a ∈ addrs)
  end.

(** One side of the test: the chain is configured and its list allows the
    address. *)
Definition sideAdmits (side : gmap ID AllowList) (chain : ID) (a : Address)
  : bool :=
  match side !! chain with
  | Some l => allows l a
  | None => false
  end.

Definition isAdmitted (config : RelayerInstanceConfig) (message : ObservedMessage)
  : bool :=
  sideAdmits (sourceChains config) (sourceChain message)
             (originSenderAddress message)
  && sideAdmits (destinationChains config) (destinationChain message)
                (destinationAddress message).

(** ** Metrics of the app-request network *)

Definition ErrFailedToCreateAppRequestNetworkMetrics : error :=
  errors_New "failed to create app request network metrics".

Record GaugeOpts : Type := { Name : string; Help : string }.

(** The part of [config.Config] that the constructor reads. *)
Record APIConfig : Type := { BaseURL : string }.
Record Config : Type := { InfoAPI : APIConfig; PChainAPI : APIConfig }.

(** A call either returns or panics. *)
Inductive outcome (A : Type) : Type :=
  | Returned (a : A)
  | Panicked.
Arguments Returned {A} a.
Arguments Panicked {A}.

(** [prometheus.Registerer]: [MustRegister] changes the registry or
    panics ([None]). *)
Class Registerer (GaugeVec R : Type) : Type :=
  MustRegister : R -> GaugeVec -> option R.

Section Metrics.

(** [prometheus.GaugeVec] and its constructor, which returns a pointer
    ([None] is [nil]). *)
Context {GaugeVec : Type}.
Variable prometheus_NewGaugeVec : GaugeOpts -> list string -> option GaugeVec.
Context {R : Type} `{!Registerer GaugeVec R}.

Record AppRequestNetworkMetrics : Type := {
  infoAPIBaseURL : string;
  pChainAPIBaseURL : string;
  infoAPICallLatencyMS : option GaugeVec;
  pChainAPICallLatencyMS : option GaugeVec
}.

(** [cfg] is a pointer; reading through a [nil] one panics, which happens
    only when the result is built, after both registrations. *)
Definition NewAppRequestNetworkMetrics (cfg : option Config) (registerer : R)
  : outcome (option AppRequestNetworkMetrics * option error * R) :=
  let infoAPICallLatencyMS :=
    prometheus_NewGaugeVec
      {| Name := "info_api_call_latency_ms";
         Help := "Latency of calling info api in milliseconds" |}
      ["info_api_base_url"] in
  match infoAPICallLatencyMS with
  | None =>
      Returned (None, Some ErrFailedToCreateAppRequestNetworkMetrics, registerer)
  | Some infoGauge =>
      match MustRegister registerer infoGauge with
      | None => Panicked
      | Some registerer1 =>
          let pChainAPICallLatencyMS :=
            prometheus_NewGaugeVec
              {| Name := "p_chain_api_call_latency_ms";
                 Help := "Latency of calling p-chain rpc in milliseconds" |}
              ["p_chain_api_base_url"] in
          match pChainAPICallLatencyMS with
          | None =>
              Returned (None, Some ErrFailedToCreateAppRequestNetworkMetrics,
                        registerer1)
          | Some pChainGauge =>
              match MustRegister registerer1 pChainGauge with
              | None => Panicked
              | Some registerer2 =>
                  match cfg with
                  | None => Panicked
                  | Some c =>
                      Returned
                        (Some {| infoAPIBaseURL := BaseURL (InfoAPI c);
                                 pChainAPIBaseURL := BaseURL (PChainAPI c);
                                 infoAPICallLatencyMS := infoAPICallLatencyMS;
                                 pChainAPICallLatencyMS := pChainAPICallLatencyMS |},
                         None, registerer2)
                  end
              end
          end
      end
  end.

End Metrics.

(** ** Classifying effects *)

(** Is the event a remote call (rather than a log entry)? *)
Definition isRpc {C O L : Type} (e : @Event C O L) : bool :=
  match e with Log _ _ _ _ => false | _ => true end.

(** Is the event a query for the current (height-agnostic) validators? *)
Definition isCurrentValidatorsQuery {C O L : Type} (e : @Event C O L) : bool :=
  match e with RpcGetCurrentValidators _ _ _ _ => true | _ => false end.

Definition isErrorLog {C O L : Type} (e : @Event C O L) : bool :=
  match e with Log _ LevelError _ _ => true | _ => false end.

(** The options a remote call was made with. *)
Definition eventOptions {C O L : Type} (e : @Event C O L) : option (list O) :=
  match e with
  | RpcGetHeight _ opts
  | RpcValidatedBy _ _ opts
  | RpcGetValidatorsAt _ _ _ opts
  | RpcGetCurrentValidators _ _ _ opts => Some opts
  | Log _ _ _ _ => None
  end.

(** The logger a log entry was written to. *)
Definition eventLogger {C O L : Type} (e : @Event C O L) : option L :=
  match e with Log lg _ _ _ => Some lg | _ => None end.

(** ** The client behind the [validators.State] interface *)

Section StateInterface.

Context {Context_ rpc_Option Logger : Type}.
Variable ID_String : ID -> string.

(** The client is declared to implement [validators.State]
    ([var _ validators.State = &CanonicalValidatorClient{}]).  A caller
    that holds it as such can only call the five interface methods, in any
    number and order, each call depending on the earlier results. *)
Inductive StateCall (A : Type) : Type :=
  | Finish (a : A)
  | CallGetMinimumHeight (ctx : Context_)
      (k : Z * option error -> StateCall A)
  | CallGetCurrentHeight (ctx : Context_)
      (k : Z * option error -> StateCall A)
  | CallGetSubnetID (ctx : Context_) (blockchainID : ID)
      (k : ID * option error -> StateCall A)
  | CallGetValidatorSet (ctx : Context_) (height : Z) (subnetID : ID)
      (k : gmap NodeID GetValidatorOutput * option error -> StateCall A)
  | CallGetCurrentValidatorSet (ctx : Context_) (subnetID : ID)
      (k : gmap ID GetCurrentValidatorOutput * Z * option error -> StateCall A).

(** Running a caller against a client dispatches each call to the method of
    that name. *)
Fixpoint runState {A : Type}
    (v : @CanonicalValidatorClient Context_ rpc_Option Logger)
    (p : StateCall A) : @M Context_ rpc_Option Logger A :=
  match p with
  | Finish _ a => mret a
  | CallGetMinimumHeight _ ctx k =>
      fun t => let '(r, t') := GetMinimumHeight v ctx t in runState v (k r) t'
  | CallGetCurrentHeight _ ctx k =>
      fun t => let '(r, t') := GetCurrentHeight v ctx t in runState v (k r) t'
  | CallGetSubnetID _ ctx blockchainID k =>
      fun t =>
        let '(r, t') := GetSubnetID v ctx blockchainID t in runState v (k r) t'
  | CallGetValidatorSet _ ctx height subnetID k =>
      fun t =>
        let '(r, t') := GetValidatorSet ID_String v ctx height subnetID t in
        runState v (k r) t'
  | CallGetCurrentValidatorSet _ ctx subnetID k =>
      fun t =>
        let '(r, t') := GetCurrentValidatorSet v ctx subnetID t in
        runState v (k r) t'
  end.

(** The effects a client [v] may have when used through the interface:
    no current-validators query, no entry at error level, its own options
    on every remote call and its own logger for every entry. *)
Definition interfaceEvent
    (v : @CanonicalValidatorClient Context_ rpc_Option Logger)
    (e : @Event Context_ rpc_Option Logger) : Prop :=
  isCurrentValidatorsQuery e = false
  /\ isErrorLog e = false
  /\ (forall opts, eventOptions e = Some opts -> opts = options v)
  /\ (forall lg, eventLogger e = Some lg -> lg = logger v).

(** An upstream canonical-set query that uses the client it is given only
    as a [validators.State]. *)
Definition viaState
    (lib : Context_ -> Z -> ID -> StateCall (list Validator * Z * option error))
    (ctx : Context_) (v : @CanonicalValidatorClient Context_ rpc_Option Logger)
    (h : Z) (subnetID : ID)
  : @M Context_ rpc_Option Logger (list Validator * Z * option error) :=
  runState v (lib ctx h subnetID).

End StateInterface.

(** ** Building the client *)

Section Constructor.

Context {Context_ rpc_Option Logger : Type}.

(** [platformvm.NewClient] makes the client of the node at a URL, and
    [utils.InitializeOptions] derives the options of every call from the
    API configuration. *)
Variable platformvm_NewClient : string -> @platformvm_Client Context_ rpc_Option.
Variable utils_InitializeOptions : APIConfig -> list rpc_Option.

(** [apiConfig] is a pointer; reading [BaseURL] through a [nil] one
    panics. *)
Definition NewCanonicalValidatorClient (logger : Logger)
    (apiConfig : option APIConfig)
  : outcome (@CanonicalValidatorClient Context_ rpc_Option Logger) :=
  match apiConfig with
  | None => Panicked
  | Some cfg =>
      let client := platformvm_NewClient (BaseURL cfg) in
      let options := utils_InitializeOptions cfg in
      Returned {| logger := logger; client := client; options := options |}
  end.

End Constructor.

(** ** Concrete nodes, configurations and registries

    The data the statements below are exercised on. *)

Definition idString (id : ID) : string := pretty id.


Definition blsKeyA : list Byte.byte := [Byte.x0a; Byte.x01].
Definition blsKeyB : list Byte.byte := [Byte.x0b; Byte.x02].

(** A subnet with a validator of weight 40 that registered an attestation
    key and one of weight 60 that did not. *)
Definition subnetValidators : gmap NodeID GetValidatorOutput :=
  {[ 1%N := {| gvo_NodeID := 1%N; gvo_PublicKey := Some blsKeyA; gvo_Weight := 40 |};
     2%N := {| gvo_NodeID := 2%N; gvo_PublicKey := None; gvo_Weight := 60 |} ]}.

(** A subnet all of whose validators registered a key. *)
Definition keyedValidators : gmap NodeID GetValidatorOutput :=
  {[ 1%N := {| gvo_NodeID := 1%N; gvo_PublicKey := Some blsKeyA; gvo_Weight := 40 |};
     2%N := {| gvo_NodeID := 2%N; gvo_PublicKey := Some blsKeyB; gvo_Weight := 60 |} ]}.

Definition currentValidators : list GetCurrentValidatorOutput :=
  [ {| gcvo_NodeID := 1%N; gcvo_PublicKey := Some blsKeyA; gcvo_Weight := 40 |};
    {| gcvo_NodeID := 2%N; gcvo_PublicKey := None; gcvo_Weight := 60 |} ].

(** A node that answers every query; [vdrs] is what it reports at any
    height. *)
Definition healthyNode (vdrs : gmap NodeID GetValidatorOutput)
  : @platformvm_Client unit string :=
  {| node_GetHeight := fun _ _ => (812%Z, None);
     node_ValidatedBy := fun _ blockchainID _ => (N.succ blockchainID, None);
     node_GetValidatorsAt := fun _ _ _ _ => (vdrs, None);
     node_GetCurrentValidators := fun _ _ _ _ => (currentValidators, None) |}.

(** A node whose height-scoped validator query fails with [e] while the
    current-validators query works. *)
Definition failingNode (e : error) : @platformvm_Client unit string :=
  {| node_GetHeight := fun _ _ => (812%Z, None);
     node_ValidatedBy := fun _ blockchainID _ => (N.succ blockchainID, None);
     node_GetValidatorsAt := fun _ _ _ _ => (∅, Some e);
     node_GetCurrentValidators := fun _ _ _ _ => (currentValidators, None) |}.

Definition clientOf (node : @platformvm_Client unit string)
  : @CanonicalValidatorClient unit string string :=
  {| logger := "validators"; client := node; options := ["timeout=5s"] |}.

(** An upstream canonical-set query that reads the validator map through
    the client ([GetValidatorSet]), totals the weight of every validator
    and lists those that registered an attestation key. *)
Definition listKeyed (m : gmap NodeID GetValidatorOutput) : list Validator :=
  omap (fun '(_, o) =>
          pk ← gvo_PublicKey o;
          Some {| nodeIdentity := gvo_NodeID o;
                  attestationPublicKey := pk;
                  stakeWeight := gvo_Weight o |})
       (map_to_list m).

Definition totalOf (m : gmap NodeID GetValidatorOutput) : Z :=
  map_fold (fun _ o acc => (gvo_Weight o + acc)%Z) 0%Z m.

Definition keyedUpstream (ctx : unit)
    (v : @CanonicalValidatorClient unit string string) (h : Z) (subnetID : ID)
  : @M unit string string (list Validator * Z * option error) :=
  '(m, err) ← GetValidatorSet idString v ctx h subnetID;
  match err with
  | Some e => mret ([], 0%Z, Some e)
  | None => mret (listKeyed m, totalOf m, None)
  end.

(** The quorum scenario: weights 40, 30, 20 and 10, and a requirement of
    67 percent. *)
Definition vdr (n : NodeID) (w : Z) : Validator :=
  {| nodeIdentity := n; attestationPublicKey := [Byte.x00]; stakeWeight := w |}.

Definition scenarioSet : ValidatorSet :=
  {| subnetIdentity := 11%N; height := Some 812%Z;
     members := [vdr 1%N 40; vdr 2%N 30; vdr 3%N 20; vdr 4%N 10];
     totalWeight := 100 |}.

Definition sixtySevenPercent : QuorumRequirement := {| fraction := 67 # 100 |}.
Definition sevenTenths : QuorumRequirement := {| fraction := 7 # 10 |}.

Definition attestationsOf (ns : list NodeID) : gmap NodeID Attestation :=
  list_to_map ((fun n => (n, [Byte.xff])) <$> ns).

(** The admission scenario: origin sender [0xAAA] only, any destination. *)
Definition chainA : ID := 1%N.
Definition chainB : ID := 2%N.

Definition senderOnlyConfig : RelayerInstanceConfig :=
  {| sourceChains := {[ chainA := Explicit {[ 0xAAA%N ]} ]};
     destinationChains := {[ chainB := Wildcard ]} |}.

Definition receiverOnlyConfig : RelayerInstanceConfig :=
  {| sourceChains := {[ chainA := Wildcard ]};
     destinationChains := {[ chainB := Explicit {[ 0xCCC%N ]} ]} |}.

Definition messageAB (sender receiver : Address) : ObservedMessage :=
  {| sourceChain := chainA; originSenderAddress := sender;
     destinationChain := chainB; destinationAddress := receiver;
     sequencePosition := (812%Z, 0%Z); payload := [] |}.

(** A gauge vector that is its description, and a registry that panics
    when a name is registered twice. *)
Definition plainGaugeVec : Type := GaugeOpts * list string.

Definition newPlainGaugeVec (o : GaugeOpts) (labels : list string)
  : option plainGaugeVec := Some (o, labels).

#[global] Instance nameRegistry : Registerer plainGaugeVec (list string) :=
  fun r g => if bool_decide (Name g.1 ∈ r) then None else Some (r ++ [Name g.1]).

Definition relayerConfig : Config :=
  {| InfoAPI := {| BaseURL := "http://info.example" |};
     PChainAPI := {| BaseURL := "http://pchain.example" |} |}.


(** A node that sends a partial validator map together with an error. *)
Definition partialNode (e : error) : @platformvm_Client unit string :=
  {| node_GetHeight := fun _ _ => (812%Z, None);
     node_ValidatedBy := fun _ blockchainID _ => (N.succ blockchainID, None);
     node_GetValidatorsAt := fun _ _ _ _ => (subnetValidators, Some e);
     node_GetCurrentValidators := fun _ _ _ _ => (currentValidators, None) |}.

(** A canonical-set library that reads the validator map through the
    interface and lists the validators with a key. *)
Definition keyedLibrary (ctx : unit) (h : Z) (subnetID : ID)
  : @StateCall unit (list Validator * Z * option error) :=
  CallGetValidatorSet _ ctx h subnetID (fun '(m, err) =>
    match err with
    | Some e => Finish _ ([], 0%Z, Some e)
    | None => Finish _ (listKeyed m, totalOf m, None)
    end).

(** The node behind a URL, and the options of an API configuration. *)
Definition nodeAt (url : string) : @platformvm_Client unit string :=
  if bool_decide (url = "http://pchain.example")
  then healthyNode keyedValidators
  else failingNode UpstreamUnavailable.

Definition optionsOf (cfg : APIConfig) : list string :=
  ["url=" +:+ BaseURL cfg].


Definition infoGaugeOpts : GaugeOpts :=
  {| Name := "info_api_call_latency_ms";
     Help := "Latency of calling info api in milliseconds" |}.

Definition pChainGaugeOpts : GaugeOpts :=
  {| Name := "p_chain_api_call_latency_ms";
     Help := "Latency of calling p-chain rpc in milliseconds" |}.

(** The struct built for [relayerConfig] from the plain gauge vectors. *)
Definition plainMetrics : @AppRequestNetworkMetrics plainGaugeVec :=
  {| infoAPIBaseURL := "http://info.example";
     pChainAPIBaseURL := "http://pchain.example";
     infoAPICallLatencyMS := Some (infoGaugeOpts, ["info_api_base_url"]);
     pChainAPICallLatencyMS := Some (pChainGaugeOpts, ["p_chain_api_base_url"]) |}.

(** * Properties of the validator-set resolver *)

Section ResolverFacts.

Context {Context_ rpc_Option Logger : Type}.
Variable context_Background : Context_.
Variable ID_String : ID -> string.
Variable pchainapi_ProposedHeight : Z.

Abbreviation Client := (@CanonicalValidatorClient Context_ rpc_Option Logger).
Abbreviation Effect := (@Event Context_ rpc_Option Logger).

Variable upstream :
  Context_ -> Client -> Z -> ID ->
  @M Context_ rpc_Option Logger (list Validator * Z * option error).

Implicit Types (v : Client) (ctx : Context_) (t : list Effect).

(** Running a computation of [M] unfolds to plain pairs. *)
Ltac run_M := cbv [mbind mret M_bind M_ret bind ret emit].

(** The entry [GetValidatorSet] logs when the height-scoped query fails. *)
Abbreviation failureEntry v h subnetID e :=
  (Log (logger v) LevelDebug
     "P-chain RPC to getValidatorAt returned error. Falling back to getCurrentValidators"
     [zap_String "subnetID" (ID_String subnetID);
      zap_Uint64 "pChainHeight" h;
      zap_Error e]).

(** The two paths of [GetValidatorSet], one lemma each. *)
Lemma GetValidatorSet_success v ctx h subnetID t res :
  node_GetValidatorsAt (client v) ctx subnetID h (options v) = (res, None) ->
  GetValidatorSet ID_String v ctx h subnetID t =
    ((res, None), t ++ [RpcGetValidatorsAt ctx subnetID h (options v)]).
Proof.
  intros Hnode. unfold GetValidatorSet, client_GetValidatorsAt.
  run_M. by rewrite Hnode.
Qed.

Lemma GetValidatorSet_failure v ctx h subnetID t res e :
  node_GetValidatorsAt (client v) ctx subnetID h (options v) = (res, Some e) ->
  GetValidatorSet ID_String v ctx h subnetID t =
    ((∅, Some e),
     t ++ [RpcGetValidatorsAt ctx subnetID h (options v);
           failureEntry v h subnetID e]).
Proof.
  intros Hnode. unfold GetValidatorSet, client_GetValidatorsAt, logger_Debug.
  run_M. rewrite Hnode. by rewrite <- app_assoc.
Qed.

(** C1, as the code behaves: when the height-scoped query reports
    [MethodUnsupported], [GetValidatorSet] hands that very error to the
    caller with an empty map.  Its effects are the height-scoped remote
    call and one log entry announcing a fallback; the current-validators
    query is not issued. *)
Theorem GetValidatorSet_method_unsupported v ctx h subnetID t res :
  node_GetValidatorsAt (client v) ctx subnetID h (options v)
    = (res, Some MethodUnsupported) ->
  GetValidatorSet ID_String v ctx h subnetID t =
    ((∅, Some MethodUnsupported),
     t ++ [RpcGetValidatorsAt ctx subnetID h (options v);
           failureEntry v h subnetID MethodUnsupported]).
Proof. intros Hnode. by eapply GetValidatorSet_failure. Qed.

(** C2: when the height-scoped query fails with an error other than
    [MethodUnsupported], [GetValidatorSet] returns that error unchanged
    and issues no query in its place: its only remote call is the
    height-scoped one, followed by a log entry. *)
Theorem GetValidatorSet_other_error v ctx h subnetID t res e :
  node_GetValidatorsAt (client v) ctx subnetID h (options v) = (res, Some e) ->
  e <> MethodUnsupported ->
  GetValidatorSet ID_String v ctx h subnetID t =
    ((∅, Some e),
     t ++ [RpcGetValidatorsAt ctx subnetID h (options v);
           failureEntry v h subnetID e]).
Proof. intros Hnode _. by eapply GetValidatorSet_failure. Qed.

(** C6: [GetCurrentCanonicalValidatorSet] asks the upstream for the
    canonical set at the proposed height; on success it returns the
    upstream list and total weight unchanged, and on failure it logs the
    error and returns the empty list, weight 0 and that error. *)
Theorem GetCurrentCanonicalValidatorSet_passthrough v subnetID t :
  GetCurrentCanonicalValidatorSet
    context_Background ID_String pchainapi_ProposedHeight upstream v subnetID t =
  match upstream context_Background v pchainapi_ProposedHeight subnetID t with
  | ((vdrs, total, None), t') => ((vdrs, total, None), t')
  | ((_, _, Some e), t') =>
      (([], 0%Z, Some e),
       t' ++ [Log (logger v) LevelError
                "Failed to get the canonical subnet validator set"
                [zap_String "subnetID" (ID_String subnetID); zap_Error e]])
  end.
Proof.
  unfold GetCurrentCanonicalValidatorSet, logger_Error. run_M.
  destruct (upstream _ _ _ _ _) as [[[vdrs total] [e|]] t']; reflexivity.
Qed.


(** C7: [GetSubnetID] is the upstream validated-by query for the given
    blockchain, value and error unchanged, and nothing else. *)
Theorem GetSubnetID_passthrough v ctx blockchainID t :
  GetSubnetID v ctx blockchainID
    = client_ValidatedBy (client v) ctx blockchainID (options v)
  /\ GetSubnetID v ctx blockchainID t =
       (node_ValidatedBy (client v) ctx blockchainID (options v),
        t ++ [RpcValidatedBy ctx blockchainID (options v)]).
Proof. split; reflexivity. Qed.

(** C8: [GetCurrentHeight] and [GetMinimumHeight] are the same height
    query: on the same client and trace they return the same result and
    leave the same trace, namely the node's answer after one
    [GetHeight] call. *)
Theorem GetMinimumHeight_GetCurrentHeight v ctx t :
  GetMinimumHeight v ctx t = GetCurrentHeight v ctx t
  /\ GetCurrentHeight v ctx t =
       (node_GetHeight (client v) ctx (options v),
        t ++ [RpcGetHeight ctx (options v)]).
Proof. split; reflexivity. Qed.

(** C9: [GetCurrentValidatorSet] is a stub: whatever its arguments, it
    returns the empty map, weight 0 and no error, and leaves the trace
    as it was (no query, no log entry). *)
Theorem GetCurrentValidatorSet_stub v ctx subnetID t :
  GetCurrentValidatorSet v ctx subnetID t = ((∅, 0%Z, None), t).
Proof. reflexivity. Qed.

End ResolverFacts.

(** * Properties of the quorum evaluator *)

Lemma hasQuorum_true_iff S atts requirement :
  hasQuorum S atts requirement = true <->
  (fraction requirement * inject_Z (totalWeight S)
   <= inject_Z (attestedWeight S atts))%Q.
Proof. unfold hasQuorum. apply Qle_bool_iff. Qed.

Lemma hasQuorum_false_iff S atts requirement :
  hasQuorum S atts requirement = false <->
  (inject_Z (attestedWeight S atts)
   < fraction requirement * inject_Z (totalWeight S))%Q.
Proof.
  rewrite <- not_true_iff_false, hasQuorum_true_iff. split.
  - apply Qnot_le_lt.
  - apply Qlt_not_le.
Qed.

(** C4: [hasQuorum] is true exactly when the weight of the validators of
    the set that attested is at least the required fraction of the total
    weight, and false exactly when it is strictly less; at exactly the
    fraction it is true.  With weights 40, 30, 20, 10 and a fraction of
    0.67, the validators of weight 40 and 30 reach quorum and those of
    weight 40 and 20 do not. *)
Theorem hasQuorum_threshold :
  (forall S atts requirement,
      hasQuorum S atts requirement = true <->
      (fraction requirement * inject_Z (totalWeight S)
       <= inject_Z (attestedWeight S atts))%Q)
  /\ (forall S atts requirement,
      hasQuorum S atts requirement = false <->
      (inject_Z (attestedWeight S atts)
       < fraction requirement * inject_Z (totalWeight S))%Q)
  /\ (forall S atts requirement,
      (inject_Z (attestedWeight S atts)
       == fraction requirement * inject_Z (totalWeight S))%Q ->
      hasQuorum S atts requirement = true)
  /\ totalWeight scenarioSet = sumStakeWeight (members scenarioSet)
  /\ attestedWeight scenarioSet (attestationsOf [1%N; 2%N]) = 70%Z
  /\ hasQuorum scenarioSet (attestationsOf [1%N; 2%N]) sixtySevenPercent = true
  /\ attestedWeight scenarioSet (attestationsOf [1%N; 3%N]) = 60%Z
  /\ hasQuorum scenarioSet (attestationsOf [1%N; 3%N]) sixtySevenPercent = false.
Proof.
  split; [exact hasQuorum_true_iff|].
  split; [exact hasQuorum_false_iff|].
  split.
  - intros S atts requirement Heq. apply hasQuorum_true_iff.
    rewrite Heq. apply Qle_refl.
  - repeat split; vm_compute; reflexivity.
Qed.

(** * Properties of the admission filter *)

Lemma sideAdmits_explicit side chain a addrs :
  side !! chain = Some (Explicit addrs) ->
  sideAdmits side chain a = bool_decide (a ∈ addrs).
Proof. intros Hside. unfold sideAdmits. by rewrite Hside. Qed.

Lemma sideAdmits_wildcard side chain a :
  side !! chain = Some Wildcard -> sideAdmits side chain a = true.
Proof. intros Hside. unfold sideAdmits. by rewrite Hside. Qed.

(** C5: a message whose origin sender is outside the explicit allow-list of
    its source chain is not admitted, whatever its destination; a message
    whose destination address is outside the explicit allow-list of its
    destination chain is not admitted, whatever its sender; and where a
    side is a wildcard every address passes that side, so that admission
    is decided by the other side alone. *)
Theorem isAdmitted_allow_lists config message :
  (forall senders,
      sourceChains config !! sourceChain message = Some (Explicit senders) ->
      originSenderAddress message ∉ senders ->
      isAdmitted config message = false)
  /\ (forall receivers,
      destinationChains config !! destinationChain message
        = Some (Explicit receivers) ->
      destinationAddress message ∉ receivers ->
      isAdmitted config message = false)
  /\ (sourceChains config !! sourceChain message = Some Wildcard ->
      (forall a, sideAdmits (sourceChains config) (sourceChain message) a = true)
      /\ isAdmitted config message =
           sideAdmits (destinationChains config) (destinationChain message)
                      (destinationAddress message))
  /\ (destinationChains config !! destinationChain message = Some Wildcard ->
      (forall a,
          sideAdmits (destinationChains config) (destinationChain message) a
            = true)
      /\ isAdmitted config message =
           sideAdmits (sourceChains config) (sourceChain message)
                      (originSenderAddress message)).
Proof.
  unfold isAdmitted. split; [|split; [|split]].
  - intros senders Hlist Hout.
    rewrite (sideAdmits_explicit _ _ _ _ Hlist), bool_decide_eq_false_2 by done.
    reflexivity.
  - intros receivers Hlist Hout.
    rewrite (sideAdmits_explicit _ _ _ _ Hlist), bool_decide_eq_false_2 by done.
    apply andb_false_r.
  - intros Hwild. split.
    + intros a. by apply sideAdmits_wildcard.
    + by rewrite (sideAdmits_wildcard _ _ _ Hwild).
  - intros Hwild. split.
    + intros a. by apply sideAdmits_wildcard.
    + rewrite (sideAdmits_wildcard _ _ _ Hwild). apply andb_true_r.
Qed.

(** * Properties of the metrics constructor *)

Section MetricsFacts.

Context {GaugeVec : Type}.
Variable prometheus_NewGaugeVec : GaugeOpts -> list string -> option GaugeVec.
Context {R : Type} `{!Registerer GaugeVec R}.

(** The constructor never hands out a [nil] gauge vector. *)
Hypothesis NewGaugeVec_not_nil :
  forall opts labels, is_Some (prometheus_NewGaugeVec opts labels).


End MetricsFacts.

(** * The statements at concrete inputs *)

(** A node without the height-scoped query whose current-validators query
    works: [GetValidatorSet] still returns [MethodUnsupported]. *)
Lemma GetValidatorSet_method_unsupported_witness :
  node_GetCurrentValidators (failingNode MethodUnsupported) tt 9%N []
    ["timeout=5s"] = (currentValidators, None)
  /\ GetValidatorSet idString (clientOf (failingNode MethodUnsupported))
       tt 812%Z 9%N [] =
       ((∅, Some MethodUnsupported),
        [RpcGetValidatorsAt tt 9%N 812%Z ["timeout=5s"];
         Log "validators" LevelDebug
           "P-chain RPC to getValidatorAt returned error. Falling back to getCurrentValidators"
           [zap_String "subnetID" "9"; zap_Uint64 "pChainHeight" 812%Z;
            zap_Error MethodUnsupported]]).
Proof.
  split; [reflexivity|].
  exact (GetValidatorSet_method_unsupported idString
           (clientOf (failingNode MethodUnsupported)) tt 812%Z 9%N [] ∅
           eq_refl).
Defined.

(** A node that is unreachable for the height-scoped query. *)
Lemma GetValidatorSet_other_error_witness :
  GetValidatorSet idString (clientOf (failingNode UpstreamUnavailable))
    tt 812%Z 9%N [] =
    ((∅, Some UpstreamUnavailable),
     [RpcGetValidatorsAt tt 9%N 812%Z ["timeout=5s"];
      Log "validators" LevelDebug
        "P-chain RPC to getValidatorAt returned error. Falling back to getCurrentValidators"
        [zap_String "subnetID" "9"; zap_Uint64 "pChainHeight" 812%Z;
         zap_Error UpstreamUnavailable]]).
Proof.
  apply (GetValidatorSet_other_error idString
           (clientOf (failingNode UpstreamUnavailable)) tt 812%Z 9%N [] ∅
           UpstreamUnavailable); [reflexivity | discriminate].
Defined.



(** Exactly at the fraction: 70 of 100 against a requirement of 0.7. *)
Lemma hasQuorum_threshold_witness :
  hasQuorum scenarioSet (attestationsOf [1%N; 2%N]) sevenTenths = true.
Proof.
  apply (proj1 (proj2 (proj2 hasQuorum_threshold))).
  vm_compute. reflexivity.
Defined.

(** Origin sender [0xAAA] only, any destination: a message from [0xBBB] is
    rejected and a message from [0xAAA] is admitted. *)
Lemma isAdmitted_allow_lists_witness :
  isAdmitted senderOnlyConfig (messageAB 0xBBB%N 5%N) = false
  /\ isAdmitted senderOnlyConfig (messageAB 0xAAA%N 5%N) = true
  /\ isAdmitted receiverOnlyConfig (messageAB 0xAAA%N 5%N) = false.
Proof.
  split; [|split].
  - apply (proj1 (isAdmitted_allow_lists senderOnlyConfig
                    (messageAB 0xBBB%N 5%N)) {[ 0xAAA%N ]}).
    + reflexivity.
    + intros Hin. vm_compute in Hin. discriminate.
  - destruct (proj2 (proj2 (proj2 (isAdmitted_allow_lists senderOnlyConfig
                    (messageAB 0xAAA%N 5%N)))) eq_refl) as [_ ->].
    reflexivity.
  - apply (proj1 (proj2 (isAdmitted_allow_lists receiverOnlyConfig
                    (messageAB 0xAAA%N 5%N))) {[ 0xCCC%N ]}).
    + reflexivity.
    + intros Hin. vm_compute in Hin. discriminate.
Defined.


(** * Further properties of the validator-set resolver *)

Section InterfaceFacts.

Context {Context_ rpc_Option Logger : Type}.
Variable context_Background : Context_.
Variable ID_String : ID -> string.
Variable pchainapi_ProposedHeight : Z.

Abbreviation Client := (@CanonicalValidatorClient Context_ rpc_Option Logger).
Abbreviation Effect := (@Event Context_ rpc_Option Logger).

Implicit Types (v : Client) (ctx : Context_) (t : list Effect).

(** What [GetValidatorSet] appends to the trace, for either answer. *)
Lemma GetValidatorSet_trace v ctx h subnetID t :
  (GetValidatorSet ID_String v ctx h subnetID t).2 =
    t ++ RpcGetValidatorsAt ctx subnetID h (options v) ::
         match (node_GetValidatorsAt (client v) ctx subnetID h (options v)).2 with
         | None => []
         | Some e =>
             [Log (logger v) LevelDebug
                "P-chain RPC to getValidatorAt returned error. Falling back to getCurrentValidators"
                [zap_String "subnetID" (ID_String subnetID);
                 zap_Uint64 "pChainHeight" h;
                 zap_Error e]]
         end.
Proof.
  destruct (node_GetValidatorsAt (client v) ctx subnetID h (options v))
    as [res [e|]] eqn:Hnode.
  - by rewrite (GetValidatorSet_failure ID_String v ctx h subnetID t res e Hnode).
  - by rewrite (GetValidatorSet_success ID_String v ctx h subnetID t res Hnode).
Qed.

(** X1: the error [GetValidatorSet] returns is exactly the node's; without
    an error the node's map is returned unchanged, and with an error the
    map is empty even when the node sent one along. *)
Theorem GetValidatorSet_result v ctx h subnetID t :
  let answer := node_GetValidatorsAt (client v) ctx subnetID h (options v) in
  let result := (GetValidatorSet ID_String v ctx h subnetID t).1 in
  result.2 = answer.2
  /\ (answer.2 = None -> result.1 = answer.1)
  /\ (is_Some answer.2 -> result.1 = ∅).
Proof.
  cbv zeta.
  destruct (node_GetValidatorsAt (client v) ctx subnetID h (options v))
    as [res [e|]] eqn:Hnode.
  - rewrite (GetValidatorSet_failure ID_String v ctx h subnetID t res e Hnode).
    cbn. split; [done|]. split; [discriminate|done].
  - rewrite (GetValidatorSet_success ID_String v ctx h subnetID t res Hnode).
    cbn. split; [done|]. split; [done|]. by intros [? [=]].
Qed.

(** X2: whatever the node answers, [GetValidatorSet] makes exactly one
    remote call, the height-scoped query with the height, subnet and
    options it was given (no retry, no second query), and it writes a log
    entry exactly when the node reported an error. *)
Theorem GetValidatorSet_one_call v ctx h subnetID t :
  exists evs : list Effect,
    (GetValidatorSet ID_String v ctx h subnetID t).2 = t ++ evs
    /\ filter (fun e => isRpc e) evs
         = [RpcGetValidatorsAt ctx subnetID h (options v)]
    /\ (filter (fun e => negb (isRpc e)) evs = [] <->
        (node_GetValidatorsAt (client v) ctx subnetID h (options v)).2 = None).
Proof.
  eexists. split; [apply GetValidatorSet_trace|].
  destruct (node_GetValidatorsAt _ _ _ _ _).2 as [e|]; cbn; by repeat split.
Qed.

(** Each step of a caller of the interface appends interface events. *)
Lemma runState_interfaceEvents {A} v (p : StateCall A) t :
  exists evs : list Effect,
    (runState ID_String v p t).2 = t ++ evs
    /\ Forall (interfaceEvent v) evs.
Proof.
  revert t. induction p as [a|ctx k IH|ctx k IH|ctx b k IH|ctx h s k IH|ctx s k IH];
    intros t; cbn [runState].
  - exists []. by rewrite app_nil_r.
  - destruct (IH (node_GetHeight (client v) ctx (options v))
                 (t ++ [RpcGetHeight ctx (options v)])) as (evs & Htr & Hall).
    exists (RpcGetHeight ctx (options v) :: evs). split.
    + etrans; [exact Htr|]. by rewrite <- app_assoc.
    + constructor; [|done]. repeat split; cbn; congruence.
  - destruct (IH (node_GetHeight (client v) ctx (options v))
                 (t ++ [RpcGetHeight ctx (options v)])) as (evs & Htr & Hall).
    exists (RpcGetHeight ctx (options v) :: evs). split.
    + etrans; [exact Htr|]. by rewrite <- app_assoc.
    + constructor; [|done]. repeat split; cbn; congruence.
  - destruct (IH (node_ValidatedBy (client v) ctx b (options v))
                 (t ++ [RpcValidatedBy ctx b (options v)])) as (evs & Htr & Hall).
    exists (RpcValidatedBy ctx b (options v) :: evs). split.
    + etrans; [exact Htr|]. by rewrite <- app_assoc.
    + constructor; [|done]. repeat split; cbn; congruence.
  - pose proof (GetValidatorSet_trace v ctx h s t) as Hstep.
    destruct (GetValidatorSet ID_String v ctx h s t) as [r t'].
    cbn [snd] in Hstep. subst t'.
    destruct (IH r (t ++ RpcGetValidatorsAt ctx s h (options v) ::
                      match (node_GetValidatorsAt (client v) ctx s h (options v)).2 with
                      | None => []
                      | Some e =>
                          [Log (logger v) LevelDebug
                             "P-chain RPC to getValidatorAt returned error. Falling back to getCurrentValidators"
                             [zap_String "subnetID" (ID_String s);
                              zap_Uint64 "pChainHeight" h;
                              zap_Error e]]
                      end)) as (evs & Htr & Hall).
    eexists. split.
    + etrans; [exact Htr|]. by rewrite <- app_assoc.
    + apply Forall_app. split; [|done].
      constructor; [repeat split; cbn; congruence|].
      destruct (node_GetValidatorsAt _ _ _ _ _).2; [|done].
      constructor; [|done]. repeat split; cbn; congruence.
  - destruct (IH (∅, 0%Z, None) t) as (evs & Htr & Hall).
    exists evs. by split.
Qed.

(** X3: however a caller uses the client through [validators.State], the
    client only adds to the trace, never issues a current-validators
    query, and never logs at error level. *)
Theorem runState_never_current_validators {A} v (p : StateCall A) t :
  exists evs : list Effect,
    (runState ID_String v p t).2 = t ++ evs
    /\ Forall (fun e => isCurrentValidatorsQuery e = false
                        /\ isErrorLog e = false) evs.
Proof.
  destruct (runState_interfaceEvents v p t) as (evs & Htr & Hall).
  exists evs. split; [done|].
  eapply Forall_impl; [exact Hall|]. by intros e (? & ? & _).
Qed.

(** An interface event carries the client's options or logger. *)
Lemma interfaceEvent_forwards v (e : Effect) :
  interfaceEvent v e ->
  (isRpc e = true -> eventOptions e = Some (options v))
  /\ (isRpc e = false -> eventLogger e = Some (logger v)).
Proof.
  intros (_ & _ & Hopts & Hlg). split; intros Hkind.
  - destruct e; cbn in *; try discriminate; f_equal; by apply Hopts.
  - destruct e; cbn in *; try discriminate; f_equal; by apply Hlg.
Qed.

(** X4: however a caller uses the client through [validators.State],
    every remote call carries the client's options and every log entry goes
    to the client's logger. *)
Theorem runState_options_and_logger {A} v (p : StateCall A) t :
  exists evs : list Effect,
    (runState ID_String v p t).2 = t ++ evs
    /\ Forall (fun e =>
                 (isRpc e = true -> eventOptions e = Some (options v))
                 /\ (isRpc e = false -> eventLogger e = Some (logger v))) evs.
Proof.
  destruct (runState_interfaceEvents v p t) as (evs & Htr & Hall).
  exists evs. split; [done|].
  eapply Forall_impl; [exact Hall|]. apply interfaceEvent_forwards.
Qed.

(** X5: when the canonical-set library uses the client only through
    [validators.State], [GetCurrentCanonicalValidatorSet] never issues a
    current-validators query, and its error-level log consists of one
    entry naming the subnet and the error when it returns an error and is
    empty otherwise. *)
Theorem GetCurrentCanonicalValidatorSet_viaState
    (lib : Context_ -> Z -> ID -> StateCall (list Validator * Z * option error))
    v subnetID t :
  exists evs : list Effect,
    let run :=
      GetCurrentCanonicalValidatorSet context_Background ID_String
        pchainapi_ProposedHeight (viaState ID_String lib) v subnetID t in
    run.2 = t ++ evs
    /\ Forall (fun e => isCurrentValidatorsQuery e = false) evs
    /\ filter (fun e => isErrorLog e) evs =
         match run.1.2 with
         | None => []
         | Some e =>
             [Log (logger v) LevelError
                "Failed to get the canonical subnet validator set"
                [zap_String "subnetID" (ID_String subnetID); zap_Error e]]
         end.
Proof.
  cbv zeta. unfold GetCurrentCanonicalValidatorSet, logger_Error, viaState.
  cbv [mbind mret M_bind M_ret bind ret emit].
  destruct (runState_interfaceEvents v
              (lib context_Background pchainapi_ProposedHeight subnetID) t)
    as (evs & Htr & Hall).
  destruct (runState ID_String v _ t) as [[[vdrs total] err] t'].
  cbn [snd] in Htr. subst t'.
  assert (Hquiet : filter (fun e : Effect => isErrorLog e) evs = []).
  { clear -Hall. induction Hall as [|e evs (_ & Hne & _) _ IH]; [done|].
    rewrite filter_cons, IH. destruct (decide _) as [Hd|]; [|done].
    by rewrite Hne in Hd. }
  assert (Hnone : Forall (fun e : Effect => isCurrentValidatorsQuery e = false) evs).
  { eapply Forall_impl; [exact Hall|]. by intros e (? & _). }
  destruct err as [e|]; cbn [fst snd].
  - eexists. split; [by rewrite <- app_assoc|]. split.
    + apply Forall_app. split; [done|]. by constructor.
    + by rewrite filter_app, Hquiet.
  - by exists evs.
Qed.

End InterfaceFacts.

(** The upstream of the counterexample to the total-weight invariant is
    such a library. *)
Lemma keyedUpstream_viaState ctx v h subnetID t :
  viaState idString keyedLibrary ctx v h subnetID t
  = keyedUpstream ctx v h subnetID t.
Proof.
  unfold viaState, keyedUpstream, keyedLibrary. cbn [runState].
  cbv [mbind mret M_bind M_ret bind ret].
  by destruct (GetValidatorSet idString v ctx h subnetID t) as [[m [e|]] t'].
Qed.

(** * Properties of the client constructor *)

Section ConstructorFacts.

Context {Context_ rpc_Option Logger : Type}.
Variable ID_String : ID -> string.
Variable platformvm_NewClient : string -> @platformvm_Client Context_ rpc_Option.
Variable utils_InitializeOptions : APIConfig -> list rpc_Option.

(** X6: [NewCanonicalValidatorClient] panics on a [nil] configuration;
    otherwise it returns a client for the node at the configured URL, and
    whatever is then done through [validators.State], every remote call
    carries the options derived from that configuration and every log entry
    goes to the logger that was passed in. *)
Theorem NewCanonicalValidatorClient_forwards (lg : Logger)
    (apiConfig : option APIConfig) :
  (apiConfig = None ->
   NewCanonicalValidatorClient platformvm_NewClient utils_InitializeOptions
     lg apiConfig = Panicked)
  /\ (forall cfg, apiConfig = Some cfg ->
      exists v,
        NewCanonicalValidatorClient platformvm_NewClient utils_InitializeOptions
          lg apiConfig = Returned v
        /\ client v = platformvm_NewClient (BaseURL cfg)
        /\ forall A (p : StateCall A) t,
            exists evs,
              (runState ID_String v p t).2 = t ++ evs
              /\ Forall (fun e =>
                   (isRpc e = true ->
                    eventOptions e = Some (utils_InitializeOptions cfg))
                   /\ (isRpc e = false -> eventLogger e = Some lg)) evs).
Proof.
  split.
  - by intros ->.
  - intros cfg ->.
    exists {| logger := lg;
              client := platformvm_NewClient (BaseURL cfg);
              options := utils_InitializeOptions cfg |}.
    split; [reflexivity|]. split; [reflexivity|].
    intros A p t.
    destruct (runState_interfaceEvents ID_String
                {| logger := lg;
                   client := platformvm_NewClient (BaseURL cfg);
                   options := utils_InitializeOptions cfg |} p t)
      as (evs & Htr & Hall).
    exists evs. split; [exact Htr|].
    eapply Forall_impl; [exact Hall|]. apply interfaceEvent_forwards.
Qed.

End ConstructorFacts.

(** * Further properties of the metrics constructor *)

Section MetricsInversion.

Context {GaugeVec : Type}.
Variable prometheus_NewGaugeVec : GaugeOpts -> list string -> option GaugeVec.
Context {R : Type} `{!Registerer GaugeVec R}.

Abbreviation infoGaugeVec :=
  (prometheus_NewGaugeVec
     {| Name := "info_api_call_latency_ms";
        Help := "Latency of calling info api in milliseconds" |}
     ["info_api_base_url"]).

Abbreviation pChainGaugeVec :=
  (prometheus_NewGaugeVec
     {| Name := "p_chain_api_call_latency_ms";
        Help := "Latency of calling p-chain rpc in milliseconds" |}
     ["p_chain_api_base_url"]).

(** X7: when [NewAppRequestNetworkMetrics] returns a metrics struct, the
    error is [nil], the configuration was not [nil], both gauge vectors
    were created and registered (the info one first), the struct holds
    exactly those two vectors, and its URLs are the configured ones. *)
Theorem NewAppRequestNetworkMetrics_registered cfg (registerer : R) m err registerer' :
  NewAppRequestNetworkMetrics prometheus_NewGaugeVec cfg registerer
    = Returned (Some m, err, registerer') ->
  err = None
  /\ exists c infoGauge pChainGauge registerer1,
      cfg = Some c
      /\ infoGaugeVec = Some infoGauge
      /\ pChainGaugeVec = Some pChainGauge
      /\ MustRegister registerer infoGauge = Some registerer1
      /\ MustRegister registerer1 pChainGauge = Some registerer'
      /\ m = {| infoAPIBaseURL := BaseURL (InfoAPI c);
                pChainAPIBaseURL := BaseURL (PChainAPI c);
                infoAPICallLatencyMS := Some infoGauge;
                pChainAPICallLatencyMS := Some pChainGauge |}.
Proof.
  unfold NewAppRequestNetworkMetrics.
  destruct infoGaugeVec as [infoGauge|]; [|done].
  destruct (MustRegister registerer infoGauge) as [registerer1|] eqn:Hreg1;
    [|done].
  destruct pChainGaugeVec as [pChainGauge|]; [|done].
  destruct (MustRegister registerer1 pChainGauge) as [registerer2|] eqn:Hreg2;
    [|done].
  destruct cfg as [c|]; [|done].
  intros [= <- <- <-]. split; [done|].
  by exists c, infoGauge, pChainGauge, registerer1.
Qed.



End MetricsInversion.

(** * The further statements at concrete inputs *)

(** A node that sends a validator map along with an error: the map is
    dropped. *)
Lemma GetValidatorSet_result_witness :
  (node_GetValidatorsAt (partialNode UpstreamUnavailable) tt 9%N 812%Z
     ["timeout=5s"]).1 = subnetValidators
  /\ (GetValidatorSet idString (clientOf (partialNode UpstreamUnavailable))
        tt 812%Z 9%N []).1.1 = ∅.
Proof.
  split; [reflexivity|].
  apply (proj2 (proj2 (GetValidatorSet_result idString
                         (clientOf (partialNode UpstreamUnavailable))
                         tt 812%Z 9%N []))).
  exists UpstreamUnavailable. reflexivity.
Defined.

(** The client built for the P-chain API of [relayerConfig]. *)
Lemma NewCanonicalValidatorClient_forwards_witness :
  exists v,
    NewCanonicalValidatorClient nodeAt optionsOf "validators"
      (Some (PChainAPI relayerConfig)) = Returned v
    /\ client v = nodeAt "http://pchain.example"
    /\ forall A (p : StateCall A) t,
        exists evs,
          (runState idString v p t).2 = t ++ evs
          /\ Forall (fun e =>
               (isRpc e = true ->
                eventOptions e = Some ["url=http://pchain.example"])
               /\ (isRpc e = false -> eventLogger e = Some "validators")) evs.
Proof.
  exact (proj2 (NewCanonicalValidatorClient_forwards idString nodeAt optionsOf
                  "validators" (Some (PChainAPI relayerConfig)))
           (PChainAPI relayerConfig) eq_refl).
Defined.

(** An empty registry: both vectors are registered, the info one first. *)
Lemma NewAppRequestNetworkMetrics_registered_witness :
  exists c infoGauge pChainGauge registerer1,
    Some relayerConfig = Some c
    /\ newPlainGaugeVec infoGaugeOpts ["info_api_base_url"] = Some infoGauge
    /\ newPlainGaugeVec pChainGaugeOpts ["p_chain_api_base_url"]
         = Some pChainGauge
    /\ MustRegister [] infoGauge = Some registerer1
    /\ MustRegister registerer1 pChainGauge
         = Some ["info_api_call_latency_ms"; "p_chain_api_call_latency_ms"]
    /\ plainMetrics =
         {| infoAPIBaseURL := BaseURL (InfoAPI c);
            pChainAPIBaseURL := BaseURL (PChainAPI c);
            infoAPICallLatencyMS := Some infoGauge;
            pChainAPICallLatencyMS := Some pChainGauge |}.
Proof.
  exact (proj2 (NewAppRequestNetworkMetrics_registered newPlainGaugeVec
                  (Some relayerConfig) [] plainMetrics None
                  ["info_api_call_latency_ms"; "p_chain_api_call_latency_ms"]
                  eq_refl)).
Defined.


